(** * macrokid graphics demo: the annotated header [demo.hpp]

    The repository's only source file is
    [macrokid/examples/graphics_demo/include/demo.hpp], a header that declares
    two aggregates whose members carry [annotate] attributes.  The header is
    embedded here twice:

    - [Source.demo_hpp] is the text of the file, character by character;
    - [Demo.demo_header] is the list of declarations the file makes, written
      as records that follow the declarations line by line.

    A small lexer and parser for the declaration syntax the header uses
    connect the two ([DemoFacts.parse_demo_hpp]), so that every statement about
    the declarations is a statement about the text of the file. *)

From Stdlib Require Import String Ascii List Bool NArith.
Import ListNotations.
Local Open Scope string_scope.
Local Open Scope list_scope.

(** ** Characters and strings *)

Module Chars.

Definition LF : ascii := "010"%char.
Definition TAB : ascii := "009"%char.
Definition CR : ascii := "013"%char.
Definition DQUOTE : ascii := "034"%char.

Definition str1 (c : ascii) : string := String c EmptyString.

(** One double quote character, as a string. *)
Definition dq : string := str1 DQUOTE.

Definition is_space (c : ascii) : bool :=
  Ascii.eqb c " "%char || Ascii.eqb c TAB || Ascii.eqb c CR || Ascii.eqb c LF.

Definition between (lo hi : nat) (c : ascii) : bool :=
  let n := nat_of_ascii c in Nat.leb lo n && Nat.leb n hi.

Definition is_digit (c : ascii) : bool := between 48 57 c.

Definition is_alpha (c : ascii) : bool :=
  between 65 90 c || between 97 122 c || Ascii.eqb c "_"%char.

Definition is_ident_char (c : ascii) : bool := is_alpha c || is_digit c.

(** [snoc s c] appends one character. *)
Definition snoc (s : string) (c : ascii) : string := s ++ str1 c.

(** Pieces of [s] between occurrences of [sep]; [cur] is the piece being
    read.  A string with [n] separators has [n + 1] pieces. *)
Fixpoint split_acc (sep : ascii) (cur : string) (s : string) : list string :=
  match s with
  | EmptyString => [cur]
  | String c rest =>
      if Ascii.eqb c sep then cur :: split_acc sep EmptyString rest
      else split_acc sep (snoc cur c) rest
  end.

Definition split (sep : ascii) (s : string) : list string :=
  split_acc sep EmptyString s.

Fixpoint join (sep : string) (l : list string) : string :=
  match l with
  | [] => EmptyString
  | [x] => x
  | x :: rest => x ++ sep ++ join sep rest
  end.

(** [cut sep s] splits [s] at the first [sep]: the part before it and the
    part after it. *)
Fixpoint cut (sep : ascii) (s : string) : option (string * string) :=
  match s with
  | EmptyString => None
  | String c rest =>
      if Ascii.eqb c sep then Some (EmptyString, rest)
      else match cut sep rest with
           | Some (a, b) => Some (String c a, b)
           | None => None
           end
  end.

(** [strip_prefix p s] is what follows [p] in [s], when [s] starts with [p]. *)
Fixpoint strip_prefix (p s : string) : option string :=
  match p, s with
  | EmptyString, _ => Some s
  | String a p', String b s' =>
      if Ascii.eqb a b then strip_prefix p' s' else None
  | String _ _, EmptyString => None
  end.

(** Value of a non-empty string of decimal digits. *)
Fixpoint decimal_acc (acc : N) (s : string) : option N :=
  match s with
  | EmptyString => Some acc
  | String c rest =>
      if is_digit c
      then decimal_acc (acc * 10 + N.of_nat (nat_of_ascii c - 48)) rest
      else None
  end.

Definition decimal (s : string) : option N :=
  match s with
  | EmptyString => None
  | _ => decimal_acc 0 s
  end.

Definition mem_string (s : string) (l : list string) : bool :=
  existsb (String.eqb s) l.

(** [has_char c s]: [c] occurs in [s]. *)
Fixpoint has_char (c : ascii) (s : string) : bool :=
  match s with
  | EmptyString => false
  | String a rest => Ascii.eqb a c || has_char c rest
  end.

(** Number of occurrences of [c] in [s]. *)
Fixpoint count_char (c : ascii) (s : string) : nat :=
  match s with
  | EmptyString => 0
  | String a rest => (if Ascii.eqb a c then 1 else 0) + count_char c rest
  end.

End Chars.

(** ** The text of the header *)

Module Source.
Import Chars.

(** The eleven lines of [demo.hpp].  A double quote of the file is written
    [dq] here; everything else is the text of the line as it stands. *)
Definition line1 : string := "#pragma once".
Definition line2 : string := EmptyString.
Definition line3 : string :=
  "struct __attribute__((annotate(" ++ dq ++ "mk::struct(tag=vertex)" ++ dq
  ++ "))) DemoVertex {".
Definition line4 : string := "    float pos[3];".
Definition line5 : string :=
  "    float __attribute__((annotate(" ++ dq
  ++ "mk::vertex(location=1,format=vec3)" ++ dq ++ "))) normal[3];".
Definition line6 : string :=
  "    float __attribute__((annotate(" ++ dq
  ++ "mk::vertex(location=2,format=vec2)" ++ dq ++ "))) uv[2];".
Definition line7 : string := "};".
Definition line8 : string := EmptyString.
Definition line9 : string := "struct Material {".
Definition line10 : string :=
  "    int __attribute__((annotate(" ++ dq
  ++ "mk::resource(kind=uniform,set=0,binding=0)" ++ dq ++ "))) id;".
Definition line11 : string := "};".

Definition demo_lines : list string :=
  [line1; line2; line3; line4; line5; line6; line7; line8; line9; line10; line11].

(** The file: its lines separated by line feeds; the last line has no line
    feed after it. *)
Definition demo_hpp : string := join (str1 LF) demo_lines.

(** Lines of a text. *)
Definition lines (text : string) : list string := split LF text.

(** The text that opens an annotation: [annotate(] and a double quote. *)
Definition annotate_open : string := "annotate(" ++ dq.

(** Every annotation string of a text, in order: at each place where
    [annotate_open] occurs, the characters up to the next double quote. *)
Fixpoint scan_annotations (text : string) : list string :=
  match text with
  | EmptyString => []
  | String _ rest =>
      match strip_prefix annotate_open text with
      | Some after =>
          match cut DQUOTE after with
          | Some (body, _) => body :: scan_annotations rest
          | None => scan_annotations rest
          end
      | None => scan_annotations rest
      end
  end.

(** Number of places of [text] where [pat] occurs. *)
Fixpoint occurrences (pat text : string) : nat :=
  match text with
  | EmptyString => 0
  | String _ rest =>
      match strip_prefix pat text with
      | Some _ => S (occurrences pat rest)
      | None => occurrences pat rest
      end
  end.

End Source.

(** ** Tokens *)

Module Lexer.
Import Chars.

Inductive token : Type :=
| TDirective (text : string)   (* a preprocessor line, without its [#] *)
| TIdent (name : string)
| TNumber (digits : string)
| TString (body : string)      (* a string literal, without its quotes *)
| TPunct (c : ascii).

Definition token_eqb (a b : token) : bool :=
  match a, b with
  | TDirective x, TDirective y => String.eqb x y
  | TIdent x, TIdent y => String.eqb x y
  | TNumber x, TNumber y => String.eqb x y
  | TString x, TString y => String.eqb x y
  | TPunct x, TPunct y => Ascii.eqb x y
  | _, _ => false
  end.

Inductive lex_state : Type :=
| LStart
| LDirective (acc : string)
| LIdent (acc : string)
| LNumber (acc : string)
| LString (acc : string).

(** Reading [c] when no token is open. *)
Definition start (c : ascii) : list token * lex_state :=
  if is_space c then ([], LStart)
  else if Ascii.eqb c "#"%char then ([], LDirective EmptyString)
  else if Ascii.eqb c DQUOTE then ([], LString EmptyString)
  else if is_alpha c then ([], LIdent (str1 c))
  else if is_digit c then ([], LNumber (str1 c))
  else ([TPunct c], LStart).

(** One character: the tokens it completes and the next state. *)
Definition step (st : lex_state) (c : ascii) : list token * lex_state :=
  match st with
  | LStart => start c
  | LDirective a =>
      if Ascii.eqb c LF then ([TDirective a], LStart)
      else ([], LDirective (snoc a c))
  | LIdent a =>
      if is_ident_char c then ([], LIdent (snoc a c))
      else let '(ts, st') := start c in (TIdent a :: ts, st')
  | LNumber a =>
      if is_digit c then ([], LNumber (snoc a c))
      else let '(ts, st') := start c in (TNumber a :: ts, st')
  | LString a =>
      if Ascii.eqb c DQUOTE then ([TString a], LStart)
      else ([], LString (snoc a c))
  end.

(** At the end of the text; a string literal left open is an error. *)
Definition flush (st : lex_state) : option (list token) :=
  match st with
  | LStart => Some []
  | LDirective a => Some [TDirective a]
  | LIdent a => Some [TIdent a]
  | LNumber a => Some [TNumber a]
  | LString _ => None
  end.

Fixpoint lex_from (st : lex_state) (text : string) : option (list token) :=
  match text with
  | EmptyString => flush st
  | String c rest =>
      let '(ts, st') := step st c in
      match lex_from st' rest with
      | Some more => Some (ts ++ more)
      | None => None
      end
  end.

Definition lex (text : string) : option (list token) := lex_from LStart text.

(** The string literals of a token list, in order. *)
Fixpoint string_literals (ts : list token) : list string :=
  match ts with
  | [] => []
  | TString s :: rest => s :: string_literals rest
  | _ :: rest => string_literals rest
  end.

End Lexer.

(** ** Declarations *)

Module Ast.

(** Type specifiers: the built-in ones a member can have, or the name of
    another type. *)
Inductive type_spec : Type :=
| TyVoid | TyBool | TyChar | TyInt | TyFloat | TyDouble
| TyNamed (name : string).

(** A data member: [float __attribute__((...)) normal[3];] has type
    [TyFloat], one attribute, name [normal] and array bounds [[3]]; a member
    that is not an array has no bounds. *)
Record field : Type := mkField {
  field_type : type_spec;
  field_attrs : list string;
  field_name : string;
  field_dims : list N
}.

(** What a member with a parameter list is. *)
Inductive callable_kind : Type :=
| KFunction | KConstructor | KDestructor | KOperator.

Inductive member : Type :=
| MField (f : field)
| MCallable (kind : callable_kind) (name : string).

(** [struct <attrs> <name> : <bases> { <members> } <instances>;] *)
Record struct_decl : Type := mkStruct {
  struct_attrs : list string;
  struct_name : string;
  struct_bases : list string;
  struct_members : list member;
  struct_instances : list string
}.

Inductive decl : Type :=
| DDirective (text : string)
| DStruct (s : struct_decl)
| DFunction (ret : type_spec) (name : string)
| DVariable (ty : type_spec) (name : string) (dims : list N).

Definition header : Type := list decl.

End Ast.

(** ** Parser *)

Module Parser.
Import Chars Lexer Ast.

Definition bind {A B : Type} (o : option A) (k : A -> option B) : option B :=
  match o with
  | Some a => k a
  | None => None
  end.

Notation "x <- e ;; k" := (bind e (fun x => k))
  (at level 61, e at next level, right associativity).
Notation "' p <- e ;; k" := (bind e (fun x => let 'p := x in k))
  (at level 61, p pattern, e at next level, right associativity).

Definition is_punct (c : ascii) (t : token) : bool := token_eqb t (TPunct c).
Definition is_kw (kw : string) (t : token) : bool := token_eqb t (TIdent kw).

(** [expect t ts]: [ts] without its first token, which has to be [t]. *)
Definition expect (t : token) (ts : list token) : option (list token) :=
  match ts with
  | t' :: rest => if token_eqb t t' then Some rest else None
  | [] => None
  end.

Fixpoint expect_all (want : list token) (ts : list token) : option (list token) :=
  match want with
  | [] => Some ts
  | t :: want' => rest <- expect t ts ;; expect_all want' rest
  end.

Definition keywords : list string :=
  ["struct"; "class"; "union"; "enum"; "operator"; "__attribute__"; "public";
   "private"; "protected"; "virtual"; "static"; "const"; "typedef"; "using";
   "namespace"; "template"].

Definition type_of_name (s : string) : type_spec :=
  if String.eqb s "void" then TyVoid
  else if String.eqb s "bool" then TyBool
  else if String.eqb s "char" then TyChar
  else if String.eqb s "int" then TyInt
  else if String.eqb s "float" then TyFloat
  else if String.eqb s "double" then TyDouble
  else TyNamed s.

(** A type specifier is one identifier that is not a keyword. *)
Definition parse_type (ts : list token) : option (type_spec * list token) :=
  match ts with
  | TIdent s :: rest =>
      if mem_string s keywords then None else Some (type_of_name s, rest)
  | _ => None
  end.

Definition parse_name (ts : list token) : option (string * list token) :=
  match ts with
  | TIdent s :: rest =>
      if mem_string s keywords then None else Some (s, rest)
  | _ => None
  end.

(** Zero or more [__attribute__((annotate("...")))]; the result lists the
    strings.  Any other attribute is refused. *)
Fixpoint parse_attrs (fuel : nat) (ts : list token)
  : option (list string * list token) :=
  match fuel with
  | O => None
  | S fuel' =>
      match ts with
      | TIdent kw :: rest =>
          if String.eqb kw "__attribute__" then
            r1 <- expect_all [TPunct "("; TPunct "("; TIdent "annotate"; TPunct "("] rest ;;
            match r1 with
            | TString a :: r2 =>
                r3 <- expect_all [TPunct ")"; TPunct ")"; TPunct ")"] r2 ;;
                '(more, r4) <- parse_attrs fuel' r3 ;;
                Some (a :: more, r4)
            | _ => None
            end
          else Some ([], ts)
      | _ => Some ([], ts)
      end
  end.

(** Zero or more array bounds [[n]]. *)
Fixpoint parse_dims (fuel : nat) (ts : list token)
  : option (list N * list token) :=
  match fuel with
  | O => None
  | S fuel' =>
      match ts with
      | TPunct c :: TNumber d :: rest =>
          if Ascii.eqb c "["%char then
            n <- decimal d ;;
            r1 <- expect (TPunct "]") rest ;;
            '(more, r2) <- parse_dims fuel' r1 ;;
            Some (n :: more, r2)
          else Some ([], ts)
      | TPunct c :: _ =>
          if Ascii.eqb c "["%char then None else Some ([], ts)
      | _ => Some ([], ts)
      end
  end.

(** [skip_group op cl depth ts]: [ts] after the [cl] that closes the group
    opened [depth] levels up. *)
Fixpoint skip_group (op cl : ascii) (depth : nat) (ts : list token)
  : option (list token) :=
  match ts with
  | [] => None
  | t :: rest =>
      if is_punct op t then skip_group op cl (S depth) rest
      else if is_punct cl t then
        match depth with
        | O => Some rest
        | S d => skip_group op cl d rest
        end
      else skip_group op cl depth rest
  end.

(** What follows the [(] of a parameter list: the parameters, then
    qualifiers, then [;] or a body in braces. *)
Fixpoint skip_to_body (ts : list token) : option (list token) :=
  match ts with
  | [] => None
  | t :: rest =>
      if is_punct ";" t then Some rest
      else if is_punct "{" t then skip_group "{" "}" 0 rest
      else skip_to_body rest
  end.

Definition skip_callable (ts : list token) : option (list token) :=
  r <- skip_group "(" ")" 0 ts ;; skip_to_body r.

(** Tokens up to the first [(], dropped. *)
Fixpoint skip_to_paren (ts : list token) : option (list token) :=
  match ts with
  | [] => None
  | t :: rest => if is_punct "(" t then Some rest else skip_to_paren rest
  end.

Definition starts_with (c : ascii) (ts : list token) : bool :=
  match ts with
  | t :: _ => is_punct c t
  | [] => false
  end.

Definition starts_with_kw (kw : string) (ts : list token) : bool :=
  match ts with
  | t :: _ => is_kw kw t
  | [] => false
  end.

(** One member of a struct body. *)
Definition parse_member (fuel : nat) (ts : list token)
  : option (member * list token) :=
  if starts_with "~" ts then
    '(n, r1) <- parse_name (tl ts) ;;
    r2 <- expect (TPunct "(") r1 ;;
    r3 <- skip_callable r2 ;;
    Some (MCallable KDestructor n, r3)
  else
    match ts with
    | TIdent tn :: _ =>
        '(ty, r1) <- parse_type ts ;;
        '(attrs1, r2) <- parse_attrs fuel r1 ;;
        if starts_with "(" r2 then
          r3 <- skip_callable (tl r2) ;;
          Some (MCallable KConstructor tn, r3)
        else if starts_with_kw "operator" r2 then
          r3 <- skip_to_paren r2 ;;
          r4 <- skip_callable r3 ;;
          Some (MCallable KOperator "operator", r4)
        else
          '(n, r3) <- parse_name r2 ;;
          '(attrs2, r4) <- parse_attrs fuel r3 ;;
          if starts_with "(" r4 then
            r5 <- skip_callable (tl r4) ;;
            Some (MCallable KFunction n, r5)
          else
            '(dims, r5) <- parse_dims fuel r4 ;;
            r6 <- expect (TPunct ";") r5 ;;
            Some (MField (mkField ty (attrs1 ++ attrs2) n dims), r6)
    | _ => None
    end.

(** Members up to the closing brace, which is consumed. *)
Fixpoint parse_members (fuel : nat) (ts : list token)
  : option (list member * list token) :=
  match fuel with
  | O => None
  | S fuel' =>
      if starts_with "}" ts then Some ([], tl ts)
      else
        '(m, r1) <- parse_member fuel ts ;;
        '(more, r2) <- parse_members fuel' r1 ;;
        Some (m :: more, r2)
  end.

Definition access_words : list string :=
  ["public"; "private"; "protected"; "virtual"].

(** The names between [:] and the opening brace, access words dropped; the
    opening brace is consumed. *)
Fixpoint parse_bases (ts : list token) : option (list string * list token) :=
  match ts with
  | [] => None
  | TIdent s :: rest =>
      '(more, r) <- parse_bases rest ;;
      Some (if mem_string s access_words then more else s :: more, r)
  | TPunct c :: rest =>
      if Ascii.eqb c "{"%char then Some ([], rest)
      else if Ascii.eqb c ","%char then parse_bases rest
      else None
  | _ => None
  end.

(** The declarators between the closing brace and [;], which is consumed:
    the objects the declaration defines. *)
Fixpoint parse_instances (ts : list token) : option (list string * list token) :=
  match ts with
  | [] => None
  | TIdent s :: rest =>
      '(more, r) <- parse_instances rest ;;
      Some (s :: more, r)
  | TPunct c :: rest =>
      if Ascii.eqb c ";"%char then Some ([], rest)
      else if Ascii.eqb c ","%char then parse_instances rest
      else None
  | _ => None
  end.

Definition parse_struct (fuel : nat) (ts : list token)
  : option (struct_decl * list token) :=
  '(attrs, r1) <- parse_attrs fuel ts ;;
  '(n, r2) <- parse_name r1 ;;
  '(bases, r3) <-
     (if starts_with ":" r2 then parse_bases (tl r2)
      else r <- expect (TPunct "{") r2 ;; Some ([], r)) ;;
  '(members, r4) <- parse_members fuel r3 ;;
  '(insts, r5) <- parse_instances r4 ;;
  Some (mkStruct attrs n bases members insts, r5).

(** One declaration at the top of the file. *)
Definition parse_decl (fuel : nat) (ts : list token)
  : option (decl * list token) :=
  match ts with
  | TDirective d :: rest => Some (DDirective d, rest)
  | TIdent kw :: rest =>
      if String.eqb kw "struct" then
        '(s, r) <- parse_struct fuel rest ;; Some (DStruct s, r)
      else
        '(ty, r1) <- parse_type ts ;;
        '(_, r2) <- parse_attrs fuel r1 ;;
        '(n, r3) <- parse_name r2 ;;
        if starts_with "(" r3 then
          r4 <- skip_callable (tl r3) ;;
          Some (DFunction ty n, r4)
        else
          '(dims, r4) <- parse_dims fuel r3 ;;
          r5 <- expect (TPunct ";") r4 ;;
          Some (DVariable ty n dims, r5)
  | _ => None
  end.

Fixpoint parse_decls (fuel : nat) (ts : list token) : option header :=
  match fuel with
  | O => None
  | S fuel' =>
      match ts with
      | [] => Some []
      | _ =>
          '(d, r) <- parse_decl fuel ts ;;
          more <- parse_decls fuel' r ;;
          Some (d :: more)
      end
  end.

(** The declarations of a text.  Every loop of the parser consumes a token
    at each turn, so one more than the number of tokens is fuel enough. *)
Definition parse_header (text : string) : option header :=
  ts <- lex text ;; parse_decls (S (List.length ts)) ts.

End Parser.

(** ** Annotation strings *)

Module Annotation.
Import Chars Parser.

(** An annotation string has the shape [name(key=value,...,key=value)]. *)
Record annotation : Type := mkAnn {
  ann_name : string;
  ann_args : list (string * string)
}.

(** [s] without its last character, which has to be [c]. *)
Fixpoint strip_last (c : ascii) (s : string) : option string :=
  match s with
  | EmptyString => None
  | String a EmptyString => if Ascii.eqb a c then Some EmptyString else None
  | String a rest => r <- strip_last c rest ;; Some (String a r)
  end.

Fixpoint parse_args (pieces : list string) : option (list (string * string)) :=
  match pieces with
  | [] => Some []
  | p :: rest =>
      kv <- cut "="%char p ;;
      more <- parse_args rest ;;
      Some (kv :: more)
  end.

Definition parse_annotation (s : string) : option annotation :=
  '(name, rest) <- cut "("%char s ;;
  inner <- strip_last ")"%char rest ;;
  args <- (match inner with
           | EmptyString => Some []
           | _ => parse_args (split ","%char inner)
           end) ;;
  Some (mkAnn name args).

Definition print_arg (kv : string * string) : string :=
  fst kv ++ "=" ++ snd kv.

Definition print_annotation (a : annotation) : string :=
  ann_name a ++ "(" ++ join "," (map print_arg (ann_args a)) ++ ")".

Fixpoint lookup (key : string) (args : list (string * string)) : option string :=
  match args with
  | [] => None
  | (k, v) :: rest => if String.eqb k key then Some v else lookup key rest
  end.

(** The name of an annotation string: what stands before its [(]. *)
Definition name_of (s : string) : option string :=
  a <- parse_annotation s ;; Some (ann_name a).

(** [mk::vertex(location=L,format=F)] *)
Record vertex_attr : Type := mkVertexAttr {
  va_location : N;
  va_format : string
}.

Definition as_vertex (s : string) : option vertex_attr :=
  a <- parse_annotation s ;;
  if String.eqb (ann_name a) "mk::vertex" then
    loc <- lookup "location" (ann_args a) ;;
    l <- decimal loc ;;
    fmt <- lookup "format" (ann_args a) ;;
    Some (mkVertexAttr l fmt)
  else None.

(** [mk::resource(kind=K,set=S,binding=B)] *)
Record resource_attr : Type := mkResourceAttr {
  ra_kind : string;
  ra_set : N;
  ra_binding : N
}.

Definition as_resource (s : string) : option resource_attr :=
  a <- parse_annotation s ;;
  if String.eqb (ann_name a) "mk::resource" then
    k <- lookup "kind" (ann_args a) ;;
    st <- lookup "set" (ann_args a) ;;
    sn <- decimal st ;;
    b <- lookup "binding" (ann_args a) ;;
    bn <- decimal b ;;
    Some (mkResourceAttr k sn bn)
  else None.

(** [mk::struct(tag=T)] *)
Definition as_struct_tag (s : string) : option string :=
  a <- parse_annotation s ;;
  if String.eqb (ann_name a) "mk::struct" then lookup "tag" (ann_args a)
  else None.

(** Number of components a format [vecN] names. *)
Definition format_components (fmt : string) : option N :=
  n <- strip_prefix "vec" fmt ;; decimal n.

(** Keeps the results of [f] that are defined. *)
Fixpoint filter_map {A B : Type} (f : A -> option B) (l : list A) : list B :=
  match l with
  | [] => []
  | x :: rest =>
      match f x with
      | Some y => y :: filter_map f rest
      | None => filter_map f rest
      end
  end.

End Annotation.

(** ** The header as declarations *)

Module Demo.
Import Chars Source Lexer Ast Parser Annotation.

(** [float pos[3];] *)
Definition pos : field := mkField TyFloat [] "pos" [3%N].

(** [float __attribute__((annotate("mk::vertex(location=1,format=vec3)"))) normal[3];] *)
Definition normal : field :=
  mkField TyFloat ["mk::vertex(location=1,format=vec3)"] "normal" [3%N].

(** [float __attribute__((annotate("mk::vertex(location=2,format=vec2)"))) uv[2];] *)
Definition uv : field :=
  mkField TyFloat ["mk::vertex(location=2,format=vec2)"] "uv" [2%N].

(** [struct __attribute__((annotate("mk::struct(tag=vertex)"))) DemoVertex { ... };] *)
Definition DemoVertex : struct_decl :=
  mkStruct ["mk::struct(tag=vertex)"] "DemoVertex" []
           [MField pos; MField normal; MField uv] [].

(** [int __attribute__((annotate("mk::resource(kind=uniform,set=0,binding=0)"))) id;] *)
Definition id : field :=
  mkField TyInt ["mk::resource(kind=uniform,set=0,binding=0)"] "id" [].

(** [struct Material { ... };] *)
Definition Material : struct_decl :=
  mkStruct [] "Material" [] [MField id] [].

(** The file: [#pragma once] and the two struct declarations. *)
Definition demo_header : header :=
  [DDirective "pragma once"; DStruct DemoVertex; DStruct Material].

(** *** Views of a header *)

Definition structs (h : header) : list struct_decl :=
  filter_map (fun d => match d with DStruct s => Some s | _ => None end) h.

Definition fields (s : struct_decl) : list field :=
  filter_map (fun m => match m with MField f => Some f | _ => None end)
             (struct_members s).

Definition callables (s : struct_decl) : list (callable_kind * string) :=
  filter_map (fun m => match m with MCallable k n => Some (k, n) | _ => None end)
             (struct_members s).

Definition is_directive (d : decl) : bool :=
  match d with DDirective _ => true | _ => false end.

Definition is_field (m : member) : bool :=
  match m with MField _ => true | MCallable _ _ => false end.

(** A plain data aggregate: every member is a data member. *)
Definition plain_aggregate (s : struct_decl) : bool :=
  forallb is_field (struct_members s).

(** A declaration without executable content: a preprocessor line or a plain
    data aggregate. *)
Definition data_only (d : decl) : bool :=
  match d with
  | DDirective _ => true
  | DStruct s => plain_aggregate s
  | DFunction _ _ => false
  | DVariable _ _ _ => false
  end.

(** Where an annotation is attached. *)
Inductive site : Type :=
| OnStruct (s : string)
| OnField (s f : string).

Definition field_annotations (s : struct_decl) (f : field) : list (site * string) :=
  map (fun a => (OnField (struct_name s) (field_name f), a)) (field_attrs f).

Definition struct_annotations (s : struct_decl) : list (site * string) :=
  map (fun a => (OnStruct (struct_name s), a)) (struct_attrs s)
  ++ flat_map (field_annotations s) (fields s).

Definition header_annotations (h : header) : list (site * string) :=
  flat_map struct_annotations (structs h).

(** The [mk::vertex] and [mk::resource] annotations of a field. *)
Definition vertex_attrs (f : field) : list vertex_attr :=
  filter_map as_vertex (field_attrs f).

Definition resource_attrs (f : field) : list resource_attr :=
  filter_map as_resource (field_attrs f).

(** The vertex-input locations a struct declares, in field order. *)
Definition locations (s : struct_decl) : list N :=
  flat_map (fun f => map va_location (vertex_attrs f)) (fields s).


(** Number of scalar components of a field: the product of its array
    bounds, 1 for a member that is not an array. *)
Definition field_components (f : field) : N :=
  fold_right N.mul 1%N (field_dims f).

Definition struct_components (s : struct_decl) : N :=
  fold_right N.add 0%N (map field_components (fields s)).

(** Names of other types a struct declaration mentions: its bases and the
    named types of its members. *)
Definition named_type (t : type_spec) : list string :=
  match t with TyNamed n => [n] | _ => [] end.

Definition type_refs (s : struct_decl) : list string :=
  struct_bases s ++ flat_map (fun f => named_type (field_type f)) (fields s).

Definition refers_to (s : struct_decl) (name : string) : bool :=
  mem_string name (type_refs s).

(** The objects a header defines: the declarators that follow a struct body
    and the variables declared at the top of the file. *)
Definition instances (h : header) : list string :=
  flat_map (fun d =>
    match d with
    | DStruct s => struct_instances s
    | DVariable _ n _ => [n]
    | _ => []
    end) h.

(** A struct of a header, by name. *)
Definition find_struct (name : string) (h : header) : option struct_decl :=
  find (fun s => String.eqb (struct_name s) name) (structs h).

(** The struct a text declares under a name. *)
Definition declared (text name : string) : option struct_decl :=
  h <- parse_header text ;; find_struct name h.

(** A member of a struct, by name. *)
Definition find_field (name : string) (s : struct_decl) : option field :=
  find (fun f => String.eqb (field_name f) name) (fields s).

(** The arithmetic types among the type specifiers, and the integer ones. *)
Definition is_arithmetic (t : type_spec) : bool :=
  match t with
  | TyBool | TyChar | TyInt | TyFloat | TyDouble => true
  | TyVoid | TyNamed _ => false
  end.

Definition is_integer (t : type_spec) : bool :=
  match t with
  | TyBool | TyChar | TyInt => true
  | _ => false
  end.

End Demo.

(** * Properties *)

(** ** Strings: what [strip_prefix], [cut], [split] and the scanner compute *)

Module StringFacts.
Import Chars Source.
Local Open Scope string_scope.

Lemma append_assoc (a b c : string) : (a ++ b) ++ c = a ++ (b ++ c).
Proof.
  induction a as [|x a IH]; simpl; [reflexivity | now rewrite IH].
Qed.

Lemma append_empty_r (a : string) : a ++ EmptyString = a.
Proof.
  induction a as [|x a IH]; simpl; [reflexivity | now rewrite IH].
Qed.

Lemma strip_prefix_spec (p s r : string) :
  strip_prefix p s = Some r <-> s = p ++ r.
Proof.
  revert s; induction p as [|a p IH]; intros s; simpl.
  - split; [intros [= ->]; reflexivity | intros ->; reflexivity].
  - destruct s as [|b s].
    + split; discriminate.
    + destruct (Ascii.eqb_spec a b) as [->|Hne].
      * rewrite IH. split; [intros ->; reflexivity | intros [= ->]; reflexivity].
      * split; [discriminate | intros [= E _]; congruence].
Qed.

Lemma cut_spec (c : ascii) (s a b : string) :
  cut c s = Some (a, b) <-> s = a ++ String c b /\ has_char c a = false.
Proof.
  revert a; induction s as [|x s IH]; intros a; simpl.
  - split; [discriminate|]. intros [E _]. destruct a; discriminate.
  - destruct (Ascii.eqb_spec x c) as [->|Hne].
    + split.
      * intros [= <- <-]. split; reflexivity.
      * intros [E H]. destruct a as [|y a]; simpl in *.
        -- injection E as ->. reflexivity.
        -- injection E as <- _. rewrite Ascii.eqb_refl in H. discriminate.
    + split.
      * destruct (cut c s) as [[a' b']|] eqn:E; [|discriminate].
        intros [= <- <-]. destruct (proj1 (IH a') eq_refl) as [-> H].
        simpl. split; [reflexivity|].
        destruct (Ascii.eqb_spec x c); [contradiction | exact H].
      * intros [E H]. destruct a as [|y a]; simpl in *.
        -- injection E as -> _. contradiction.
        -- injection E as <- ->. apply orb_false_elim in H as [_ H].
           rewrite (proj2 (IH a) (conj eq_refl H)). reflexivity.
Qed.

(** A text with [n] separators has [n + 1] pieces. *)
Lemma split_acc_length (sep : ascii) (s cur : string) :
  List.length (split_acc sep cur s) = S (count_char sep s).
Proof.
  revert cur; induction s as [|x s IH]; intros cur; simpl; [reflexivity|].
  destruct (Ascii.eqb x sep); simpl; now rewrite IH.
Qed.

Lemma lines_length (text : string) :
  List.length (lines text) = S (count_char LF text).
Proof. apply split_acc_length. Qed.

(** Splitting a piece that has no separator, followed or not by more. *)
Lemma split_acc_piece (sep : ascii) (s cur : string) :
  has_char sep s = false ->
  split_acc sep cur s = [cur ++ s] /\
  forall rest, split_acc sep cur (s ++ String sep rest)
               = (cur ++ s) :: split_acc sep EmptyString rest.
Proof.
  revert cur; induction s as [|x s IH]; intros cur H; simpl in *.
  - rewrite append_empty_r, Ascii.eqb_refl. split; [reflexivity|]. reflexivity.
  - apply orb_false_elim in H as [Hx Hs]. rewrite Hx.
    destruct (IH (snoc cur x) Hs) as [E1 E2].
    unfold snoc in *. rewrite append_assoc in E1. simpl in E1.
    split; [exact E1|]. intros rest. rewrite E2, append_assoc. reflexivity.
Qed.

(** Joining lines with line feeds and splitting again gives the lines back,
    when no line holds a line feed. *)
Lemma lines_join (l : list string) :
  l <> [] ->
  Forall (fun s => has_char LF s = false) l ->
  lines (join (str1 LF) l) = l.
Proof.
  unfold lines, split. induction l as [|x l IH]; intros Hne Hall; [congruence|].
  inversion Hall as [|? ? Hx Hl]; subst.
  destruct l as [|y l].
  - simpl. now rewrite (proj1 (split_acc_piece LF x EmptyString Hx)).
  - change (join (str1 LF) (x :: y :: l))
      with (x ++ String LF (join (str1 LF) (y :: l))).
    rewrite (proj2 (split_acc_piece LF x EmptyString Hx)). simpl append at 1.
    f_equal. apply IH; [discriminate | exact Hl].
Qed.

(** The scanner's equation at a text that is not empty. *)
Lemma scan_annotations_step (c : ascii) (text : string) :
  scan_annotations (String c text) =
  match strip_prefix annotate_open (String c text) with
  | Some after =>
      match cut DQUOTE after with
      | Some (body, _) => body :: scan_annotations text
      | None => scan_annotations text
      end
  | None => scan_annotations text
  end.
Proof. reflexivity. Qed.

(** The scanner adds results as the text grows to the left. *)
Lemma scan_annotations_cons (c : ascii) (text a : string) :
  In a (scan_annotations text) -> In a (scan_annotations (String c text)).
Proof.
  intros H. rewrite scan_annotations_step.
  destruct (strip_prefix annotate_open (String c text)) as [after|]; [|exact H].
  destruct (cut DQUOTE after) as [[body rest]|]; [right|]; exact H.
Qed.

(** Every string the scanner returns stands in the text between
    [annotate_open] and a double quote, and holds no double quote. *)
Lemma scan_annotations_sound (text a : string) :
  In a (scan_annotations text) ->
  exists pre post,
    text = pre ++ annotate_open ++ a ++ dq ++ post /\
    has_char DQUOTE a = false.
Proof.
  induction text as [|c text IH]; [intros []|].
  rewrite scan_annotations_step. intros H.
  assert (Hrest : In a (scan_annotations text) ->
                  exists pre post,
                    String c text = pre ++ annotate_open ++ a ++ dq ++ post /\
                    has_char DQUOTE a = false).
  { intros H'. destruct (IH H') as (pre & post & -> & Hq).
    exists (String c pre), post. split; [reflexivity | exact Hq]. }
  destruct (strip_prefix annotate_open (String c text)) as [after|] eqn:Ep;
    [|auto].
  destruct (cut DQUOTE after) as [[body rest]|] eqn:Ec; [|auto].
  destruct H as [<-|H]; [|auto].
  apply strip_prefix_spec in Ep. apply cut_spec in Ec as [-> Hq].
  exists EmptyString, rest. split; [exact Ep | exact Hq].
Qed.

(** Every string that stands in the text between [annotate_open] and a
    double quote, and holds no double quote, is returned by the scanner. *)
Lemma scan_annotations_complete (pre a post : string) :
  has_char DQUOTE a = false ->
  In a (scan_annotations (pre ++ annotate_open ++ a ++ dq ++ post)).
Proof.
  intros Hq. induction pre as [|c pre IH].
  - change (EmptyString ++ annotate_open ++ a ++ dq ++ post)
      with (annotate_open ++ a ++ dq ++ post).
    remember (annotate_open ++ a ++ dq ++ post) as text eqn:Et.
    destruct text as [|c text]; [discriminate|].
    assert (Ep : strip_prefix annotate_open (String c text)
                 = Some (a ++ dq ++ post))
      by (apply strip_prefix_spec; exact Et).
    assert (Ec : cut DQUOTE (a ++ dq ++ post) = Some (a, post))
      by (apply cut_spec; split; [reflexivity | exact Hq]).
    rewrite scan_annotations_step, Ep, Ec. left; reflexivity.
  - apply (scan_annotations_cons c). exact IH.
Qed.

End StringFacts.

(** ** The header: text and declarations agree *)

Module DemoFacts.
Import Chars Source Lexer Ast Parser Annotation Demo StringFacts.
Local Open Scope string_scope.

(** The file is 378 bytes long. *)
Lemma demo_hpp_length : String.length demo_hpp = 378.
Proof. vm_compute. reflexivity. Qed.

Lemma demo_lines_no_LF : Forall (fun s => has_char LF s = false) demo_lines.
Proof. unfold demo_lines. repeat constructor. Qed.

(** The lines of the file are the eleven lines it was joined from. *)
Lemma lines_demo_hpp : lines demo_hpp = demo_lines.
Proof.
  unfold demo_hpp. apply lines_join; [discriminate | exact demo_lines_no_LF].
Qed.

(** The lexer reads the whole file; its string literals are the four
    annotation strings. *)
Lemma lex_demo_hpp :
  exists ts, lex demo_hpp = Some ts /\
    List.length ts = 68 /\
    string_literals ts =
      ["mk::struct(tag=vertex)";
       "mk::vertex(location=1,format=vec3)";
       "mk::vertex(location=2,format=vec2)";
       "mk::resource(kind=uniform,set=0,binding=0)"].
Proof.
  destruct (lex demo_hpp) as [ts|] eqn:E; [|vm_compute in E; discriminate].
  exists ts. split; [reflexivity|].
  vm_compute in E. injection E as <-. split; reflexivity.
Qed.

(** The parser reads the whole file and returns [demo_header]. *)
Lemma parse_demo_hpp : parse_header demo_hpp = Some demo_header.
Proof. vm_compute. reflexivity. Qed.

Lemma declared_DemoVertex : declared demo_hpp "DemoVertex" = Some DemoVertex.
Proof. unfold declared. rewrite parse_demo_hpp. reflexivity. Qed.

Lemma declared_Material : declared demo_hpp "Material" = Some Material.
Proof. unfold declared. rewrite parse_demo_hpp. reflexivity. Qed.

Lemma structs_demo_header : structs demo_header = [DemoVertex; Material].
Proof. reflexivity. Qed.

Lemma fields_DemoVertex : fields DemoVertex = [pos; normal; uv].
Proof. reflexivity. Qed.

Lemma fields_Material : fields Material = [id].
Proof. reflexivity. Qed.

(** Each annotation string of the header is printed back, character by
    character, from what [parse_annotation] reads in it. *)
Lemma annotations_print_back :
  forall site a, In (site, a) (header_annotations demo_header) ->
    option_map print_annotation (parse_annotation a) = Some a.
Proof.
  intros site a H.
  change (header_annotations demo_header)
    with [(OnStruct "DemoVertex", "mk::struct(tag=vertex)");
          (OnField "DemoVertex" "normal", "mk::vertex(location=1,format=vec3)");
          (OnField "DemoVertex" "uv", "mk::vertex(location=2,format=vec2)");
          (OnField "Material" "id", "mk::resource(kind=uniform,set=0,binding=0)")]
    in H.
  simpl In in H.
  destruct H as [H|[H|[H|[H|[]]]]]; injection H as _ <-; vm_compute; reflexivity.
Qed.

(** Only the field of [Material] is tagged: the struct itself has no
    attribute, where [DemoVertex] has one. *)
Lemma struct_level_attrs :
  struct_attrs DemoVertex = ["mk::struct(tag=vertex)"] /\
  struct_attrs Material = [].
Proof. split; reflexivity. Qed.

(** The struct [DemoVertex] is tagged [vertex]. *)
Lemma struct_tag_DemoVertex :
  filter_map as_struct_tag (struct_attrs DemoVertex) = ["vertex"].
Proof. reflexivity. Qed.

End DemoFacts.

(** ** The parser on other declarations

    What the views used below answer on texts that do declare a function, an
    object or a reference to another struct. *)

Module ParserExamples.
Import Chars Source Lexer Ast Parser Annotation Demo.
Local Open Scope string_scope.

Example member_function_is_seen :
  option_map (map data_only) (parse_header "struct A { int x; int get() { return x; } };")
  = Some [false].
Proof. vm_compute. reflexivity. Qed.

Example constructor_and_operator_are_seen :
  option_map (flat_map callables) (option_map structs
    (parse_header "struct A { A(); ~A(); A operator+(A b); float w[4]; };"))
  = Some [(KConstructor, "A"); (KDestructor, "A"); (KOperator, "operator")].
Proof. vm_compute. reflexivity. Qed.

Example function_is_seen :
  parse_header "int main() { return 0; }" = Some [DFunction TyInt "main"].
Proof. vm_compute. reflexivity. Qed.

Example objects_are_seen :
  option_map instances (parse_header "struct A { int x; } a, b; A c;")
  = Some ["a"; "b"; "c"].
Proof. vm_compute. reflexivity. Qed.

Example references_are_seen :
  option_map (map (fun s => (struct_name s, type_refs s))) (option_map structs
    (parse_header "struct A { int x; }; struct B : public A { A a; float y; };"))
  = Some [("A", []); ("B", ["A"; "A"])].
Proof. vm_compute. reflexivity. Qed.

Example open_string_is_refused :
  parse_header ("struct A { int __attribute__((annotate(" ++ dq ++ "mk::x) y; };")
  = None.
Proof. vm_compute. reflexivity. Qed.

Example location_zero_is_seen :
  option_map (map va_location) (option_map (filter_map as_vertex)
    (Some (scan_annotations
       ("float __attribute__((annotate(" ++ dq
        ++ "mk::vertex(location=0,format=vec3)" ++ dq ++ "))) pos[3];"))))
  = Some [0%N].
Proof. vm_compute. reflexivity. Qed.

End ParserExamples.

(** ** The statements of the specification *)

Module Claims.
Import Chars Source Lexer Ast Parser Annotation Demo StringFacts DemoFacts.
Local Open Scope string_scope.

Lemma scan_demo_hpp :
  scan_annotations demo_hpp =
    ["mk::struct(tag=vertex)";
     "mk::vertex(location=1,format=vec3)";
     "mk::vertex(location=2,format=vec2)";
     "mk::resource(kind=uniform,set=0,binding=0)"].
Proof. vm_compute. reflexivity. Qed.

Lemma header_annotations_demo :
  header_annotations demo_header =
    [(OnStruct "DemoVertex", "mk::struct(tag=vertex)");
     (OnField "DemoVertex" "normal", "mk::vertex(location=1,format=vec3)");
     (OnField "DemoVertex" "uv", "mk::vertex(location=2,format=vec2)");
     (OnField "Material" "id", "mk::resource(kind=uniform,set=0,binding=0)")].
Proof. reflexivity. Qed.

(** C1.  The annotation strings of the header are exactly four:
    [mk::struct(tag=vertex)] on the struct [DemoVertex],
    [mk::vertex(location=1,format=vec3)] on its field [normal],
    [mk::vertex(location=2,format=vec2)] on its field [uv] and
    [mk::resource(kind=uniform,set=0,binding=0)] on the field [id] of
    [Material].  The scanner finds these four in the text, in this order; a
    string stands in the text between [annotate(] + quote and the next quote
    if and only if it is one of the four; and the declarations the text
    parses to carry the four at the places named. *)
Theorem annotation_strings_exact :
  scan_annotations demo_hpp =
    ["mk::struct(tag=vertex)";
     "mk::vertex(location=1,format=vec3)";
     "mk::vertex(location=2,format=vec2)";
     "mk::resource(kind=uniform,set=0,binding=0)"] /\
  (forall a : string,
     (exists pre post,
        demo_hpp = pre ++ annotate_open ++ a ++ dq ++ post /\
        has_char DQUOTE a = false)
     <-> In a ["mk::struct(tag=vertex)";
               "mk::vertex(location=1,format=vec3)";
               "mk::vertex(location=2,format=vec2)";
               "mk::resource(kind=uniform,set=0,binding=0)"]) /\
  occurrences "annotate" demo_hpp = 4 /\
  (exists h, parse_header demo_hpp = Some h /\
     header_annotations h =
       [(OnStruct "DemoVertex", "mk::struct(tag=vertex)");
        (OnField "DemoVertex" "normal", "mk::vertex(location=1,format=vec3)");
        (OnField "DemoVertex" "uv", "mk::vertex(location=2,format=vec2)");
        (OnField "Material" "id", "mk::resource(kind=uniform,set=0,binding=0)")]).
Proof.
  split; [exact scan_demo_hpp|]. split; [|split].
  - intros a. rewrite <- scan_demo_hpp. split.
    + intros (pre & post & E & Hq). rewrite E.
      apply scan_annotations_complete. exact Hq.
    + apply scan_annotations_sound.
  - vm_compute. reflexivity.
  - exists demo_header. split; [exact parse_demo_hpp | exact header_annotations_demo].
Qed.

(** C2.  The struct the header declares under the name [DemoVertex] has
    exactly three members, all data members, in this order: [pos], an array
    of 3 [float]; [normal], an array of 3 [float]; [uv], an array of 2
    [float].  Each has an arithmetic type, and the struct has no base. *)
Theorem DemoVertex_three_fields_in_order :
  exists v,
    declared demo_hpp "DemoVertex" = Some v /\
    List.length (struct_members v) = 3 /\
    map (fun m => match m with
                  | MField f => Some (field_name f, field_type f, field_dims f)
                  | MCallable _ _ => None
                  end) (struct_members v)
      = [Some ("pos", TyFloat, [3%N]);
         Some ("normal", TyFloat, [3%N]);
         Some ("uv", TyFloat, [2%N])] /\
    map field_name (fields v) = ["pos"; "normal"; "uv"] /\
    (forall f, In f (fields v) -> is_arithmetic (field_type f) = true) /\
    struct_bases v = [].
Proof.
  exists DemoVertex. split; [exact declared_DemoVertex|].
  repeat split; try reflexivity.
  intros f Hf. rewrite fields_DemoVertex in Hf. simpl In in Hf.
  destruct Hf as [<-|[<-|[<-|[]]]]; reflexivity.
Qed.

(** C3.  The struct the header declares under the name [Material] has
    exactly one member, the data member [id] of type [int] (not an array),
    and that member carries one annotation,
    [mk::resource(kind=uniform,set=0,binding=0)]: a resource of kind
    [uniform], set 0, binding 0. *)
Theorem Material_single_resource_field :
  exists m f,
    declared demo_hpp "Material" = Some m /\
    struct_members m = [MField f] /\
    field_name f = "id" /\
    field_type f = TyInt /\
    is_integer (field_type f) = true /\
    field_dims f = [] /\
    field_attrs f = ["mk::resource(kind=uniform,set=0,binding=0)"] /\
    resource_attrs f = [mkResourceAttr "uniform" 0 0].
Proof.
  exists Material, id. split; [exact declared_Material|].
  repeat split; try reflexivity.
Qed.

(** The [mk::vertex] annotations of [DemoVertex], field by field. *)
Lemma vertex_attrs_DemoVertex :
  map (fun f => (field_name f, vertex_attrs f)) (fields DemoVertex) =
    [("pos", []);
     ("normal", [mkVertexAttr 1 "vec3"]);
     ("uv", [mkVertexAttr 2 "vec2"])].
Proof. reflexivity. Qed.

Lemma vertex_format_cases (f : field) (va : vertex_attr) :
  In f (fields DemoVertex) ->
  In va (vertex_attrs f) ->
  va_location va = 1%N \/ va_location va = 2%N.
Proof.
  intros Hf Hva. rewrite fields_DemoVertex in Hf. simpl In in Hf.
  destruct Hf as [<-|[<-|[<-|[]]]].
  - destruct Hva.
  - change (vertex_attrs normal) with [mkVertexAttr 1 "vec3"] in Hva.
    destruct Hva as [<-|[]]. left; reflexivity.
  - change (vertex_attrs uv) with [mkVertexAttr 2 "vec2"] in Hva.
    destruct Hva as [<-|[]]. right; reflexivity.
Qed.

(** C4.  In the struct the header declares under the name [DemoVertex],
    the fields that carry an [mk::vertex] annotation are [normal] and [uv]
    and no other.  [normal] carries exactly one, at location 1 with format
    [vec3], and is an array of 3; [uv] carries exactly one, at location 2
    with format [vec2], and is an array of 2.  Every attribute on a field of
    the struct is an [mk::vertex] that reads with a location and a format
    (none is left out of the reading); and for every field and every
    [mk::vertex] annotation on it, the [N] of the format [vecN] is the one
    array bound of the field. *)
Theorem vertex_format_matches_arity :
  exists v,
    declared demo_hpp "DemoVertex" = Some v /\
    map (fun f => (field_name f, field_dims f, field_attrs f, vertex_attrs f))
        (fields v)
      = [("pos", [3%N], [], []);
         ("normal", [3%N], ["mk::vertex(location=1,format=vec3)"],
          [mkVertexAttr 1 "vec3"]);
         ("uv", [2%N], ["mk::vertex(location=2,format=vec2)"],
          [mkVertexAttr 2 "vec2"])] /\
    (exists f,
       In f (fields v) /\ field_name f = "normal" /\
       vertex_attrs f = [mkVertexAttr 1 "vec3"] /\
       format_components "vec3" = Some 3%N /\ field_dims f = [3%N]) /\
    (exists f,
       In f (fields v) /\ field_name f = "uv" /\
       vertex_attrs f = [mkVertexAttr 2 "vec2"] /\
       format_components "vec2" = Some 2%N /\ field_dims f = [2%N]) /\
    (forall f a, In f (fields v) -> In a (field_attrs f) ->
       name_of a = Some "mk::vertex" /\
       exists va, as_vertex a = Some va /\ In va (vertex_attrs f)) /\
    (forall f va, In f (fields v) -> In va (vertex_attrs f) ->
       (exists n,
          format_components (va_format va) = Some n /\ field_dims f = [n]) /\
       (va_location va = 1%N ->
          va_format va = "vec3" /\ field_name f = "normal" /\
          field_dims f = [3%N]) /\
       (va_location va = 2%N ->
          va_format va = "vec2" /\ field_name f = "uv" /\
          field_dims f = [2%N]) /\
       (va_location va = 1%N \/ va_location va = 2%N)).
Proof.
  exists DemoVertex. split; [exact declared_DemoVertex|].
  split; [reflexivity|]. split; [|split; [|split]].
  - exists normal. repeat split. simpl; auto.
  - exists uv. repeat split. simpl; auto.
  - intros f a Hf Ha. rewrite fields_DemoVertex in Hf. simpl In in Hf.
    destruct Hf as [<-|[<-|[<-|[]]]]; simpl in Ha.
    + destruct Ha.
    + destruct Ha as [<-|[]]. split; [reflexivity|].
      exists (mkVertexAttr 1 "vec3"). split; [reflexivity | left; reflexivity].
    + destruct Ha as [<-|[]]. split; [reflexivity|].
      exists (mkVertexAttr 2 "vec2"). split; [reflexivity | left; reflexivity].
  - intros f va Hf Hva. rewrite fields_DemoVertex in Hf. simpl In in Hf.
    destruct Hf as [<-|[<-|[<-|[]]]].
    + destruct Hva.
    + change (vertex_attrs normal) with [mkVertexAttr 1 "vec3"] in Hva.
      destruct Hva as [<-|[]]. split; [exists 3%N; split; reflexivity|].
      split; [intros _; repeat split|].
      split; [discriminate | left; reflexivity].
    + change (vertex_attrs uv) with [mkVertexAttr 2 "vec2"] in Hva.
      destruct Hva as [<-|[]]. split; [exists 2%N; split; reflexivity|].
      split; [discriminate|].
      split; [intros _; repeat split | right; reflexivity].
Qed.

(** C5.  The file has eleven lines (ten line feeds; the eleventh line, [};],
    has none after it).  It declares exactly two structs, [DemoVertex] and
    [Material], and nothing else but a preprocessor line.  Each of the two
    carries annotations, on itself or on its fields, and the name of every
    annotation is one of [mk::struct], [mk::vertex], [mk::resource]. *)
Theorem header_eleven_lines_two_tagged_structs :
  List.length (lines demo_hpp) = 11 /\
  count_char LF demo_hpp = 10 /\
  nth 10 (lines demo_hpp) EmptyString = "};" /\
  (exists h, parse_header demo_hpp = Some h /\
     map struct_name (structs h) = ["DemoVertex"; "Material"] /\
     List.length (structs h) = 2 /\
     (forall d, In d h -> is_directive d = true \/ exists s, d = DStruct s) /\
     (forall s, In s (structs h) -> struct_annotations s <> []) /\
     (forall where_ a, In (where_, a) (header_annotations h) ->
        exists n, name_of a = Some n /\
                  In n ["mk::struct"; "mk::vertex"; "mk::resource"])).
Proof.
  rewrite lines_demo_hpp.
  split; [reflexivity|]. split; [vm_compute; reflexivity|].
  split; [reflexivity|].
  exists demo_header. split; [exact parse_demo_hpp|].
  split; [reflexivity|]. split; [reflexivity|]. split; [|split].
  - intros d Hd. simpl In in Hd. destruct Hd as [<-|[<-|[<-|[]]]].
    + left; reflexivity.
    + right; exists DemoVertex; reflexivity.
    + right; exists Material; reflexivity.
  - intros s Hs. rewrite structs_demo_header in Hs. simpl In in Hs.
    destruct Hs as [<-|[<-|[]]]; discriminate.
  - intros w a Ha. rewrite header_annotations_demo in Ha. simpl In in Ha.
    destruct Ha as [E|[E|[E|[E|[]]]]]; injection E as _ <-.
    + exists "mk::struct". split; [vm_compute; reflexivity | simpl; auto].
    + exists "mk::vertex". split; [vm_compute; reflexivity | simpl; auto].
    + exists "mk::vertex". split; [vm_compute; reflexivity | simpl; auto].
    + exists "mk::resource". split; [vm_compute; reflexivity | simpl; auto].
Qed.

(** C6.  Every declaration of the header is a preprocessor line or a plain
    data aggregate: a struct whose members are all data members, with no
    member function, constructor, destructor or operator, and with no object
    declared after its body.  No declaration is a function or a variable. *)
Theorem no_executable_logic (h : header) (d : decl) :
  parse_header demo_hpp = Some h ->
  In d h ->
  data_only d = true /\
  (forall s, d = DStruct s ->
     plain_aggregate s = true /\ callables s = [] /\ struct_instances s = []) /\
  (forall ret n, d <> DFunction ret n) /\
  (forall ty n dims, d <> DVariable ty n dims).
Proof.
  rewrite parse_demo_hpp. intros [= <-] Hd. simpl In in Hd.
  destruct Hd as [<-|[<-|[<-|[]]]];
    (split; [reflexivity|]); (split; [|split; discriminate]);
    intros s E; try discriminate; injection E as <-; repeat split.
Qed.

Lemma no_executable_logic_DemoVertex :
  parse_header demo_hpp = Some demo_header /\
  In (DStruct DemoVertex) demo_header /\
  data_only (DStruct DemoVertex) = true.
Proof.
  assert (Hd : In (DStruct DemoVertex) demo_header) by (simpl; auto).
  split; [exact parse_demo_hpp|]. split; [exact Hd|].
  exact (proj1 (no_executable_logic demo_header (DStruct DemoVertex)
                  parse_demo_hpp Hd)).
Defined.

(** C7.  Neither struct refers to the other: neither has a base, no member
    of either has a named type, and each of the two names occurs once in the
    text of the file, where it is declared.  The header defines no object:
    no declarator follows a struct body, no variable is declared, and no
    declaration has a body to run. *)
Theorem aggregates_independent :
  exists h v m,
    parse_header demo_hpp = Some h /\
    find_struct "DemoVertex" h = Some v /\
    find_struct "Material" h = Some m /\
    refers_to v (struct_name m) = false /\
    refers_to m (struct_name v) = false /\
    type_refs v = [] /\
    type_refs m = [] /\
    occurrences "DemoVertex" demo_hpp = 1 /\
    occurrences "Material" demo_hpp = 1 /\
    instances h = [] /\
    forallb data_only h = true.
Proof.
  exists demo_header, DemoVertex, Material.
  split; [exact parse_demo_hpp|].
  repeat split; try reflexivity; vm_compute; reflexivity.
Qed.

(** C8.  The field [pos] of [DemoVertex] carries no annotation: its line of
    the file is [float pos[3];], it has no attribute and so no [mk::vertex]
    location or format, where [normal] and [uv] have one each.  No field of
    the header is bound to location 0. *)
Theorem pos_not_annotated :
  exists h v p,
    parse_header demo_hpp = Some h /\
    find_struct "DemoVertex" h = Some v /\
    find_field "pos" v = Some p /\
    nth 3 (lines demo_hpp) EmptyString = "    float pos[3];" /\
    field_attrs p = [] /\
    vertex_attrs p = [] /\
    map (fun f => (field_name f, List.length (vertex_attrs f))) (fields v)
      = [("pos", 0); ("normal", 1); ("uv", 1)] /\
    ~ In 0%N (locations v) /\
    occurrences "location=0" demo_hpp = 0 /\
    (forall s f va, In s (structs h) -> In f (fields s) ->
       In va (vertex_attrs f) -> va_location va <> 0%N).
Proof.
  exists demo_header, DemoVertex, pos.
  split; [exact parse_demo_hpp|].
  rewrite lines_demo_hpp.
  do 6 (split; [reflexivity|]).
  split; [|split; [vm_compute; reflexivity|]].
  - change (locations DemoVertex) with [1%N; 2%N].
    simpl. intros [H|[H|[]]]; discriminate.
  - intros s f va Hs Hf Hva. rewrite structs_demo_header in Hs. simpl In in Hs.
    destruct Hs as [<-|[<-|[]]].
    + destruct (vertex_format_cases f va Hf Hva) as [-> | ->]; discriminate.
    + rewrite fields_Material in Hf. destruct Hf as [<-|[]]. destruct Hva.
Qed.


(** C10.  Every field of [DemoVertex] has element type [float]; the fields
    have 3, 3 and 2 components, 8 in all.  The one field of [Material] has
    type [int]. *)
Theorem concrete_element_types :
  exists v m,
    declared demo_hpp "DemoVertex" = Some v /\
    declared demo_hpp "Material" = Some m /\
    (forall f, In f (fields v) -> field_type f = TyFloat) /\
    List.length (fields v) = List.length (struct_members v) /\
    map field_components (fields v) = [3%N; 3%N; 2%N] /\
    struct_components v = 8%N /\
    map field_type (fields m) = [TyInt] /\
    List.length (struct_members m) = 1.
Proof.
  exists DemoVertex, Material.
  split; [exact declared_DemoVertex|]. split; [exact declared_Material|].
  split; [|repeat split].
  intros f Hf. rewrite fields_DemoVertex in Hf. simpl In in Hf.
  destruct Hf as [<-|[<-|[<-|[]]]]; reflexivity.
Qed.

End Claims.

(** ** Further properties of the header *)

Module Extras.
Import Chars Source Lexer Ast Parser Annotation Demo StringFacts DemoFacts.
Local Open Scope string_scope.

(** X1.  Every annotation string of the header follows the shape
    [name(key=value,...,key=value)]: it is read as a name and a list of
    arguments that is not empty and in which no key comes twice, and
    printing what was read gives the string back, character by character. *)
Theorem annotations_read_and_print_back
  (h : header) (where_ : site) (a : string) :
  parse_header demo_hpp = Some h ->
  In (where_, a) (header_annotations h) ->
  exists ann,
    parse_annotation a = Some ann /\
    print_annotation ann = a /\
    ann_args ann <> [] /\
    NoDup (map fst (ann_args ann)).
Proof.
  rewrite parse_demo_hpp. intros [= <-] Ha.
  rewrite Claims.header_annotations_demo in Ha. simpl In in Ha.
  destruct Ha as [E|[E|[E|[E|[]]]]]; injection E as _ <-.
  - exists (mkAnn "mk::struct" [("tag", "vertex")]).
    repeat split; try discriminate.
    simpl. repeat constructor; simpl; intuition discriminate.
  - exists (mkAnn "mk::vertex" [("location", "1"); ("format", "vec3")]).
    repeat split; try discriminate.
    simpl. repeat constructor; simpl; intuition discriminate.
  - exists (mkAnn "mk::vertex" [("location", "2"); ("format", "vec2")]).
    repeat split; try discriminate.
    simpl. repeat constructor; simpl; intuition discriminate.
  - exists (mkAnn "mk::resource"
                  [("kind", "uniform"); ("set", "0"); ("binding", "0")]).
    repeat split; try discriminate.
    simpl. repeat constructor; simpl; intuition discriminate.
Qed.

Lemma annotations_read_and_print_back_uv :
  parse_header demo_hpp = Some demo_header /\
  In (OnField "DemoVertex" "uv", "mk::vertex(location=2,format=vec2)")
     (header_annotations demo_header) /\
  exists ann,
    parse_annotation "mk::vertex(location=2,format=vec2)" = Some ann /\
    print_annotation ann = "mk::vertex(location=2,format=vec2)" /\
    ann_args ann <> [] /\
    NoDup (map fst (ann_args ann)).
Proof.
  assert (Ha : In (OnField "DemoVertex" "uv", "mk::vertex(location=2,format=vec2)")
                  (header_annotations demo_header))
    by (simpl; auto).
  split; [exact parse_demo_hpp|]. split; [exact Ha|].
  exact (annotations_read_and_print_back demo_header _ _ parse_demo_hpp Ha).
Defined.

(** X2.  The names of the header do not collide: the two structs have
    different names, the fields of each struct have different names, and
    so every place that carries an annotation carries exactly one: no
    struct and no field has two attributes. *)
Theorem annotation_sites_unique :
  exists h,
    parse_header demo_hpp = Some h /\
    NoDup (map struct_name (structs h)) /\
    (forall s, In s (structs h) -> NoDup (map field_name (fields s))) /\
    NoDup (map fst (header_annotations h)) /\
    (forall s, In s (structs h) -> List.length (struct_attrs s) <= 1) /\
    (forall s f, In s (structs h) -> In f (fields s) ->
       List.length (field_attrs f) <= 1).
Proof.
  exists demo_header. split; [exact parse_demo_hpp|].
  rewrite Claims.header_annotations_demo, structs_demo_header.
  split; [|split; [|split; [|split]]].
  - simpl. repeat constructor; simpl; intuition discriminate.
  - intros s [<-|[<-|[]]]; simpl;
      repeat constructor; simpl; intuition discriminate.
  - simpl. repeat constructor; simpl; intuition discriminate.
  - intros s [<-|[<-|[]]]; simpl; auto.
  - intros s f [<-|[<-|[]]] Hf.
    + rewrite fields_DemoVertex in Hf.
      destruct Hf as [<-|[<-|[<-|[]]]]; simpl; auto.
    + rewrite fields_Material in Hf. destruct Hf as [<-|[]]; simpl; auto.
Qed.

(** X3.  Each kind of annotation stands where it belongs.  An attribute of a
    struct is an [mk::struct] with a tag; an attribute of a field is an
    [mk::vertex] with a decimal location and a format, or an [mk::resource]
    with a kind and decimal set and binding, never both; and a field with
    an [mk::vertex] annotation is a member of a struct tagged [vertex]. *)
Theorem annotation_kinds_in_place (h : header) (s : struct_decl) :
  parse_header demo_hpp = Some h ->
  In s (structs h) ->
  (forall a, In a (struct_attrs s) -> exists t, as_struct_tag a = Some t) /\
  (forall f a, In f (fields s) -> In a (field_attrs f) ->
     as_struct_tag a = None /\
     ((exists va, as_vertex a = Some va) /\ as_resource a = None \/
      (exists ra, as_resource a = Some ra) /\ as_vertex a = None)) /\
  (forall f, In f (fields s) -> vertex_attrs f <> [] ->
     filter_map as_struct_tag (struct_attrs s) = ["vertex"]).
Proof.
  rewrite parse_demo_hpp. intros [= <-] Hs.
  rewrite structs_demo_header in Hs. destruct Hs as [<-|[<-|[]]].
  - split; [|split].
    + intros a [<-|[]]. exists "vertex". reflexivity.
    + intros f a Hf Ha. rewrite fields_DemoVertex in Hf.
      destruct Hf as [<-|[<-|[<-|[]]]]; simpl in Ha.
      * destruct Ha.
      * destruct Ha as [<-|[]]. split; [reflexivity|]. left.
        split; [exists (mkVertexAttr 1 "vec3")|]; reflexivity.
      * destruct Ha as [<-|[]]. split; [reflexivity|]. left.
        split; [exists (mkVertexAttr 2 "vec2")|]; reflexivity.
    + intros f _ _. reflexivity.
  - split; [|split].
    + intros a [].
    + intros f a Hf Ha. rewrite fields_Material in Hf.
      destruct Hf as [<-|[]]. simpl in Ha. destruct Ha as [<-|[]].
      split; [reflexivity|]. right.
      split; [exists (mkResourceAttr "uniform" 0 0)|]; reflexivity.
    + intros f Hf Hv. rewrite fields_Material in Hf.
      destruct Hf as [<-|[]]. exfalso. apply Hv. reflexivity.
Qed.

Lemma annotation_kinds_in_place_DemoVertex :
  parse_header demo_hpp = Some demo_header /\
  In DemoVertex (structs demo_header) /\
  (forall f, In f (fields DemoVertex) -> vertex_attrs f <> [] ->
     filter_map as_struct_tag (struct_attrs DemoVertex) = ["vertex"]).
Proof.
  assert (Hs : In DemoVertex (structs demo_header)) by (simpl; auto).
  split; [exact parse_demo_hpp|]. split; [exact Hs|].
  exact (proj2 (proj2 (annotation_kinds_in_place demo_header DemoVertex
                         parse_demo_hpp Hs))).
Defined.

(** X4.  The one preprocessor line of the header is [#pragma once], its
    first line, before every declaration.  The character [#] stands nowhere
    else in the file: the header includes no other file and defines no
    macro. *)
Theorem pragma_once_only_directive :
  exists h rest,
    parse_header demo_hpp = Some h /\
    h = DDirective "pragma once" :: rest /\
    (forall d, In d rest -> is_directive d = false) /\
    nth 0 (lines demo_hpp) EmptyString = "#pragma once" /\
    count_char "#" demo_hpp = 1 /\
    occurrences "#include" demo_hpp = 0 /\
    occurrences "#define" demo_hpp = 0.
Proof.
  exists demo_header, [DStruct DemoVertex; DStruct Material].
  split; [exact parse_demo_hpp|]. split; [reflexivity|].
  split; [intros d [<-|[<-|[]]]; reflexivity|].
  rewrite lines_demo_hpp. split; [reflexivity|].
  repeat split; vm_compute; reflexivity.
Qed.

(** X5.  Every attribute of the header is an [annotate] attribute: the word
    [__attribute__] stands four times in the file, each time opening
    [__attribute__((annotate(] and a string, so there are as many attributes
    as annotation strings and none of another kind (none that would pack or
    align a struct). *)
Theorem every_attribute_is_annotate :
  occurrences "__attribute__" demo_hpp = 4 /\
  occurrences ("__attribute__((" ++ annotate_open) demo_hpp = 4 /\
  List.length (scan_annotations demo_hpp) = 4 /\
  occurrences "packed" demo_hpp = 0 /\
  occurrences "aligned" demo_hpp = 0 /\
  (exists h, parse_header demo_hpp = Some h /\
     List.length (header_annotations h)
     = occurrences "__attribute__" demo_hpp).
Proof.
  rewrite Claims.scan_demo_hpp.
  repeat split; try (vm_compute; reflexivity).
  exists demo_header. split; [exact parse_demo_hpp | vm_compute; reflexivity].
Qed.

End Extras.
